(** * Order handler: a shallow embedding of [order_handler.py]

    The module declares two Pydantic models ([Product], [Order]), two computed
    fields on [Order] ([total_price], [total_quantity]), one process-wide list
    ([fake_orders_db]) and one POST handler ([process_order]).

    Python's [int] is unbounded and is modelled by [Z]; Python's [float] is an
    IEEE 754 binary64 and is modelled by the primitive [float]; the conversion
    of an [int] operand to [float] in mixed arithmetic rounds to nearest even
    and raises [OverflowError] when the integer is out of range. *)

From Stdlib Require Import ZArith List Ascii String Bool Lia.
From Stdlib Require Import Floats.
From Stdlib Require Import Permutation.

Set Warnings "-inexact-float,-register-all".
Import ListNotations.

Local Open Scope string_scope.
Local Open Scope list_scope.
Local Open Scope Z_scope.

(** ** Exceptions and the error monad *)

Inductive exn : Type :=
| OverflowError.

Inductive result (A : Type) : Type :=
| Ok (a : A)
| Raise (e : exn).

Arguments Ok {A} a.
Arguments Raise {A} e.

Definition bind {A B : Type} (r : result A) (k : A -> result B) : result B :=
  match r with
  | Ok a => k a
  | Raise e => Raise e
  end.

Declare Scope py_scope.
Delimit Scope py_scope with py.
Notation "x <- c1 ;; c2" := (bind c1 (fun x => c2))
  (at level 100, c1 at next level, right associativity) : py_scope.
Local Open Scope py_scope.

(** ** Python numbers *)

Inductive number : Type :=
| NInt (z : Z)
| NFloat (f : float).

(** [float(z)] as CPython's [PyLong_AsDouble] computes it: the integer is
    rounded to 53 significant bits, ties to even, and an integer whose rounded
    value is outside the binary64 range raises [OverflowError]. *)
Definition float_of_int (z : Z) : result float :=
  match binary_normalize prec emax z 0 false with
  | S754_infinity _ => Raise OverflowError
  | sf => Ok (SF2Prim sf)
  end.

Definition as_float (n : number) : result float :=
  match n with
  | NInt z => float_of_int z
  | NFloat f => Ok f
  end.

(** [a + b]: integer addition on two integers, otherwise both operands are
    converted to [float] and added there. *)
Definition py_add (a b : number) : result number :=
  match a, b with
  | NInt x, NInt y => Ok (NInt (x + y))
  | _, _ =>
      fa <- as_float a ;;
      fb <- as_float b ;;
      Ok (NFloat (fa + fb)%float)
  end.

(** [a * b], with the same coercion rule. *)
Definition py_mul (a b : number) : result number :=
  match a, b with
  | NInt x, NInt y => Ok (NInt (x * y))
  | _, _ =>
      fa <- as_float a ;;
      fb <- as_float b ;;
      Ok (NFloat (fa * fb)%float)
  end.

(** ** The models *)

Record Product : Type := mkProduct {
  product_name : string;
  price : float;
  quantity : Z
}.

Record Order : Type := mkOrder {
  email : option string;
  products : list Product
}.

(** The body of the [for] loop of [total_price], run from the accumulator
    [acc] over the remaining products. *)
Fixpoint total_price_loop (acc : number) (ps : list Product) : result number :=
  match ps with
  | [] => Ok acc
  | product :: rest =>
      term <- py_mul (NFloat (price product)) (NInt (quantity product)) ;;
      acc' <- py_add acc term ;;
      total_price_loop acc' rest
  end.

Definition total_price (self : Order) : result number :=
  total_price_loop (NInt 0) (products self).

Fixpoint total_quantity_loop (acc : Z) (ps : list Product) : Z :=
  match ps with
  | [] => acc
  | product :: rest => total_quantity_loop (acc + quantity product) rest
  end.

Definition total_quantity (self : Order) : Z :=
  total_quantity_loop 0 (products self).

(** ** Python values

    What [json.loads] yields and what [model_dump] and the handler build.  A
    [dict] keeps its insertion order and is modelled by an association list
    whose keys are distinct. *)

Inductive pyval : Type :=
| PyNone
| PyBool (b : bool)
| PyNum (n : number)
| PyStr (s : string)
| PyList (l : list pyval)
| PyDict (d : list (string * pyval)).

Fixpoint dict_get {A : Type} (k : string) (d : list (string * A)) : option A :=
  match d with
  | [] => None
  | (k', v) :: d' => if String.eqb k k' then Some v else dict_get k d'
  end.

Definition dict_keys {A : Type} (d : list (string * A)) : list string :=
  map fst d.

(** Python's [==] on numbers.  An [int] is compared with a [float] exactly,
    without rounding the integer. *)
Definition int_eq_float (z : Z) (f : float) : bool :=
  match Prim2SF f with
  | S754_zero _ => Z.eqb z 0
  | S754_finite s m e =>
      if Z.leb 0 e then Z.eqb z (cond_Zopp s (Zpos m * 2 ^ e))
      else Z.eqb (z * 2 ^ (- e)) (cond_Zopp s (Zpos m))
  | S754_infinity _ | S754_nan => false
  end.

Definition num_eqb (a b : number) : bool :=
  match a, b with
  | NInt x, NInt y => Z.eqb x y
  | NFloat x, NFloat y => (x =? y)%float
  | NInt x, NFloat y => int_eq_float x y
  | NFloat x, NInt y => int_eq_float y x
  end.

(** Python's [==] on values: [bool] is a subclass of [int], lists compare
    element by element and dicts compare as maps, whatever their order. *)
Fixpoint py_eqb (a b : pyval) : bool :=
  match a, b with
  | PyNone, PyNone => true
  | PyBool x, PyBool y => Bool.eqb x y
  | PyBool x, PyNum n => num_eqb (NInt (Z.b2z x)) n
  | PyNum n, PyBool y => num_eqb n (NInt (Z.b2z y))
  | PyNum n, PyNum m => num_eqb n m
  | PyStr s, PyStr t => String.eqb s t
  | PyList l, PyList m =>
      (fix all2 (l m : list pyval) : bool :=
         match l, m with
         | [], [] => true
         | x :: l', y :: m' => py_eqb x y && all2 l' m'
         | _, _ => false
         end) l m
  | PyDict d, PyDict e =>
      Nat.eqb (List.length d) (List.length e) &&
      (fix sub (d : list (string * pyval)) : bool :=
         match d with
         | [] => true
         | (k, v) :: d' =>
             match dict_get k e with
             | Some w => py_eqb v w
             | None => false
             end && sub d'
         end) d
  | _, _ => false
  end.

(** ** Serialisation: [model_dump] *)

Definition Product_model_dump (self : Product) : pyval :=
  PyDict [ ("product_name", PyStr (product_name self));
           ("price", PyNum (NFloat (price self)));
           ("quantity", PyNum (NInt (quantity self))) ].

Definition dump_email (e : option string) : pyval :=
  match e with
  | Some address => PyStr address
  | None => PyNone
  end.

(** The declared fields come first, in declaration order, then the computed
    fields, each evaluated by calling its property. *)
Definition model_dump (self : Order) : result pyval :=
  tp <- total_price self ;;
  Ok (PyDict [ ("email", dump_email (email self));
               ("products", PyList (map Product_model_dump (products self)));
               ("total_price", PyNum tp);
               ("total_quantity", PyNum (NInt (total_quantity self))) ]).

(** ** The handler

    [fake_orders_db] is the only state.  A handler is a function from the
    list before the call to an outcome and the list after it; an exception
    leaves the list as it was when it was raised. *)

Definition db : Type := list pyval.

Definition M (A : Type) : Type := db -> result A * db.

Definition ret {A : Type} (a : A) : M A := fun s => (Ok a, s).

Definition lift {A : Type} (r : result A) : M A := fun s => (r, s).

Definition bindM {A B : Type} (m : M A) (k : A -> M B) : M B :=
  fun s =>
    match m s with
    | (Ok a, s') => k a s'
    | (Raise e, s') => (Raise e, s')
    end.

Definition fake_orders_db_append (record : pyval) : M unit :=
  fun s => (Ok tt, s ++ [record]).

Declare Scope handler_scope.
Delimit Scope handler_scope with handler.
Notation "x <~ c1 ;; c2" := (bindM c1 (fun x => c2))
  (at level 100, c1 at next level, right associativity) : handler_scope.
Local Open Scope handler_scope.

Definition summary (customer_id : Z) (q : Z) (tp : number) : pyval :=
  PyDict [ ("id", PyNum (NInt customer_id));
           ("quantity", PyNum (NInt q));
           ("total_price", PyNum tp) ].

Definition process_order (customer_id : Z) (order : Order) : M pyval :=
  record <~ lift (model_dump order) ;;
  _ <~ fake_orders_db_append record ;;
  q <~ ret (total_quantity order) ;;
  tp <~ lift (total_price order) ;;
  ret (summary customer_id q tp).

(** ** The validation layer in front of the handler

    The decorator [@app.post("/order/{customer_id}")] and the annotations
    [customer_id: int] and [order: Order] make the framework coerce the path
    segment and validate the JSON body before it calls [process_order].  The
    coercions of the scalar types belong to the validation library and are
    taken as parameters; what the two classes declare (which fields exist,
    which are required, which has a default) is fixed here. *)

Record Validators : Type := mkValidators {
  path_int : string -> option Z;
  validate_str : pyval -> option string;
  validate_float : pyval -> option float;
  validate_int : pyval -> option Z;
  validate_email : pyval -> option string
}.

Fixpoint validate_list {A : Type} (f : pyval -> option A) (l : list pyval)
  : option (list A) :=
  match l with
  | [] => Some []
  | v :: l' =>
      match f v, validate_list f l' with
      | Some a, Some r => Some (a :: r)
      | _, _ => None
      end
  end.

Section Validation.

Variable V : Validators.

(** [Product]: three required fields. *)
Definition Product_validate (v : pyval) : option Product :=
  match v with
  | PyDict d =>
      match dict_get "product_name" d, dict_get "price" d,
            dict_get "quantity" d with
      | Some n, Some p, Some q =>
          match validate_str V n, validate_float V p, validate_int V q with
          | Some n', Some p', Some q' => Some (mkProduct n' p' q')
          | _, _, _ => None
          end
      | _, _, _ => None
      end
  | _ => None
  end.

(** [email: EmailStr | None = None]: the default when the key is absent,
    [None] when it is null, otherwise the validated address. *)
Definition email_validate (d : list (string * pyval))
  : option (option string) :=
  match dict_get "email" d with
  | None => Some None
  | Some PyNone => Some None
  | Some v =>
      match validate_email V v with
      | Some address => Some (Some address)
      | None => None
      end
  end.

(** [products: list[Product]]: required, any length. *)
Definition products_validate (d : list (string * pyval))
  : option (list Product) :=
  match dict_get "products" d with
  | Some (PyList l) => validate_list Product_validate l
  | _ => None
  end.

Definition Order_validate (v : pyval) : option Order :=
  match v with
  | PyDict d =>
      match email_validate d, products_validate d with
      | Some e, Some ps => Some (mkOrder e ps)
      | _, _ => None
      end
  | _ => None
  end.

Inductive response : Type :=
| Response200 (content : pyval)
| ValidationError422
| InternalServerError500 (e : exn).

(** Modelled from the spec: the framework's handling of one request to
    [POST /order/{customer_id}], which is not part of this module.  The path
    parameter and the body are parsed and validated first; the handler is
    called only with arguments that passed, and a request that did not pass
    is answered with the framework's validation error.  The model stops
    where the handler returns: [Response200 content] stands for the handler
    having handed [content] back, and what the framework then makes of it
    (rendering it as JSON, which fails for a total that is infinite or not
    a number) is not modelled. *)
Definition dispatch (handler : Z -> Order -> M pyval)
           (segment : string) (body : pyval) (s : db) : response * db :=
  match path_int V segment, Order_validate body with
  | Some customer_id, Some order =>
      match handler customer_id order s with
      | (Ok content, s') => (Response200 content, s')
      | (Raise e, s') => (InternalServerError500 e, s')
      end
  | _, _ => (ValidationError422, s)
  end.

Definition post_order : string -> pyval -> db -> response * db :=
  dispatch process_order.

End Validation.

(** A run of the handler over a sequence of accepted submissions. *)
Fixpoint submit_all (subs : list (Z * Order)) (s : db)
  : list (result pyval) * db :=
  match subs with
  | [] => ([], s)
  | (customer_id, order) :: rest =>
      let '(r, s') := process_order customer_id order s in
      let '(rs, s'') := submit_all rest s' in
      (r :: rs, s'')
  end.

(** ** A concrete validation layer

    Used to run the endpoint on concrete requests: JSON values are taken at
    their JSON type (an integer is accepted where a float is expected), a
    path segment is a decimal numeral with an optional minus sign, and an
    address is a non-empty local part, one [@] and a dotted domain.  It is
    not the validation library: it coerces no string, float or boolean to an
    integer and hands an address back as it came.  It is used only on
    requests on which the two agree. *)

Definition digit_of (c : Ascii.ascii) : option Z :=
  let n := Z.of_nat (Ascii.nat_of_ascii c) in
  if (48 <=? n) && (n <=? 57) then Some (n - 48) else None.

Fixpoint digits (acc : Z) (s : string) : option Z :=
  match s with
  | EmptyString => Some acc
  | String c s' =>
      match digit_of c with
      | Some dg => digits (10 * acc + dg) s'
      | None => None
      end
  end.

Definition decimal (s : string) : option Z :=
  match s with
  | EmptyString => None
  | String "-"%char (String c s') => option_map Z.opp (digits 0 (String c s'))
  | _ => digits 0 s
  end.

Fixpoint contains (c : Ascii.ascii) (s : string) : bool :=
  match s with
  | EmptyString => false
  | String c' s' => Ascii.eqb c c' || contains c s'
  end.

Fixpoint address_ok (seen_local : bool) (s : string) : bool :=
  match s with
  | EmptyString => false
  | String c s' =>
      if Ascii.eqb c "@"%char
      then seen_local && negb (contains "@"%char s') && contains "."%char s'
      else address_ok true s'
  end.

Definition json_validators : Validators := {|
  path_int := decimal;
  validate_str := fun v => match v with PyStr s => Some s | _ => None end;
  validate_float := fun v =>
    match v with
    | PyNum (NFloat f) => Some f
    | PyNum (NInt z) =>
        match float_of_int z with Ok f => Some f | Raise _ => None end
    | _ => None
    end;
  validate_int := fun v =>
    match v with PyNum (NInt z) => Some z | _ => None end;
  validate_email := fun v =>
    match v with
    | PyStr s => if address_ok false s then Some s else None
    | _ => None
    end
|}.

(** ** The sums the totals are compared with

    [sum_quantity] is the sum of the quantities of a list of products.
    [price_sum_upto ps k] is the sum of [price * quantity] over the first [k]
    products of [ps], taken from the first product on: each partial sum is
    the previous one plus the next term, with Python's arithmetic. *)

Fixpoint sum_quantity (ps : list Product) : Z :=
  match ps with
  | [] => 0
  | p :: rest => quantity p + sum_quantity rest
  end.

Definition line_price (p : Product) : result number :=
  py_mul (NFloat (price p)) (NInt (quantity p)).

Fixpoint price_sum_upto (ps : list Product) (k : nat) : result number :=
  match k with
  | O => Ok (NInt 0)
  | S k' =>
      partial <- price_sum_upto ps k' ;;
      match nth_error ps k' with
      | Some p => term <- line_price p ;; py_add partial term
      | None => Ok partial
      end
  end.

Definition price_sum (ps : list Product) : result number :=
  price_sum_upto ps (List.length ps).

(** ** Requests and orders used as examples *)

Definition product_json (name : string) (p : float) (q : Z) : pyval :=
  PyDict [ ("product_name", PyStr name);
           ("price", PyNum (NFloat p));
           ("quantity", PyNum (NInt q)) ].

(** Scenario A: [{"products":[{"product_name":"Pen","price":1.5,"quantity":4}]}]. *)
Definition body_A : pyval :=
  PyDict [ ("products", PyList [ product_json "Pen" 1.5 4 ]) ].

Definition order_A : Order := mkOrder None [ mkProduct "Pen" 1.5 4 ].

(** Scenario B: an address and two products. *)
Definition body_B : pyval :=
  PyDict [ ("email", PyStr "a@b.com");
           ("products", PyList [ product_json "Pen" 1.5 2;
                                 product_json "Mug" 10 1 ]) ].

Definition order_B : Order :=
  mkOrder (Some "a@b.com") [ mkProduct "Pen" 1.5 2; mkProduct "Mug" 10 1 ].

(** Scenario C: [{"products":[]}]. *)
Definition body_C : pyval := PyDict [ ("products", PyList []) ].

Definition order_C : Order := mkOrder None [].

(** Scenario D: [{"email":"not-an-email","products":[]}]. *)
Definition body_D : pyval :=
  PyDict [ ("email", PyStr "not-an-email"); ("products", PyList []) ].

(** One pen whose quantity, [2^1024], is an integer that no binary64 holds. *)
Definition body_huge : pyval :=
  PyDict [ ("products", PyList [ product_json "Pen" 1.5 (2 ^ 1024) ]) ].

Definition order_huge : Order := mkOrder None [ mkProduct "Pen" 1.5 (2 ^ 1024) ].

(** Three unit lines priced 0.1, 0.2 and 0.3. *)
Definition dime : list Product := [ mkProduct "a" 0.1 1 ].
Definition rest_of_basket : list Product :=
  [ mkProduct "b" 0.2 1; mkProduct "c" 0.3 1 ].

(** The record [model_dump] builds for [o] once [total_price] has given
    [tp]. *)
Definition snapshot_of (o : Order) (tp : number) : pyval :=
  PyDict [ ("email", dump_email (email o));
           ("products", PyList (map Product_model_dump (products o)));
           ("total_price", PyNum tp);
           ("total_quantity", PyNum (NInt (total_quantity o))) ].

(** [v[k]] for a record that is a [dict]. *)
Definition py_get (k : string) (v : pyval) : option pyval :=
  match v with
  | PyDict d => dict_get k d
  | _ => None
  end.

Definition py_keys (v : pyval) : list string :=
  match v with
  | PyDict d => dict_keys d
  | _ => []
  end.

(** A call that returned, as opposed to one that raised. *)
Definition returned {A : Type} (r : result A) : Prop :=
  exists a, r = Ok a.

(** The quantity of [p] is an integer that [float] can hold, so that
    [price * quantity] can be computed. *)
Definition quantity_fits (p : Product) : Prop :=
  returned (float_of_int (quantity p)).

(** Why a request does not reach the handler. *)
Inductive rejection_cause (V : Validators) : string -> pyval -> Prop :=
| bad_customer_id segment body :
    path_int V segment = None ->
    rejection_cause V segment body
| body_not_object segment body :
    (forall d, body <> PyDict d) ->
    rejection_cause V segment body
| products_missing segment d :
    dict_get "products" d = None ->
    rejection_cause V segment (PyDict d)
| products_not_list segment d v :
    dict_get "products" d = Some v ->
    (forall l, v <> PyList l) ->
    rejection_cause V segment (PyDict d)
| product_invalid segment d l v :
    dict_get "products" d = Some (PyList l) ->
    In v l ->
    Product_validate V v = None ->
    rejection_cause V segment (PyDict d)
| email_invalid segment d v :
    dict_get "email" d = Some v ->
    v <> PyNone ->
    validate_email V v = None ->
    rejection_cause V segment (PyDict d).

(** What [total_price] reads of an order: the price and the quantity of
    each line. *)
Definition priced_lines (o : Order) : list (float * Z) :=
  map (fun p => (price p, quantity p)) (products o).

(** The records a run of submissions leaves: one for each order whose
    [model_dump] returns, none for the others. *)
Definition records_of (subs : list (Z * Order)) : list pyval :=
  flat_map (fun sub => match model_dump (snd sub) with
                       | Ok record => [record]
                       | Raise _ => []
                       end) subs.

Fixpoint count_returned {A : Type} (rs : list (result A)) : nat :=
  match rs with
  | [] => O
  | Ok _ :: rest => S (count_returned rest)
  | Raise _ :: rest => count_returned rest
  end.

(** Readers of a dumped product, used to recover its fields. *)
Definition str_of (v : option pyval) : string :=
  match v with Some (PyStr x) => x | _ => "" end.

Definition float_of (v : option pyval) : float :=
  match v with Some (PyNum (NFloat f)) => f | _ => 0%float end.

Definition int_of (v : option pyval) : Z :=
  match v with Some (PyNum (NInt z)) => z | _ => 0 end.

Definition Product_of_dump (v : pyval) : Product :=
  mkProduct (str_of (py_get "product_name" v))
            (float_of (py_get "price" v))
            (int_of (py_get "quantity" v)).

Definition Order_of_dump (v : pyval) : Order :=
  mkOrder (match py_get "email" v with
           | Some (PyStr address) => Some address
           | _ => None
           end)
          (match py_get "products" v with
           | Some (PyList l) => map Product_of_dump l
           | _ => []
           end).

(** ** The sum of the lines, written with the float operations alone

    [nearest_float z] is [z] rounded to the nearest binary64, ties to even;
    [too_large z] says that this rounding leaves the binary64 range.
    [float_sum_upto ps k] is the binary64 sum of the first [k] lines of
    [ps], each the binary64 product of the price and of the rounded
    quantity, added one after the other to 0.0. *)

Definition nearest_float (z : Z) : float :=
  SF2Prim (binary_normalize prec emax z 0 false).

Definition too_large (z : Z) : bool :=
  match binary_normalize prec emax z 0 false with
  | S754_infinity _ => true
  | _ => false
  end.

Fixpoint float_sum_upto (ps : list Product) (k : nat) : float :=
  match k with
  | O => 0%float
  | S k' =>
      match nth_error ps k' with
      | Some p =>
          PrimFloat.add (float_sum_upto ps k')
                        (PrimFloat.mul (price p) (nearest_float (quantity p)))
      | None => float_sum_upto ps k'
      end
  end.

Definition ordered_sum (ps : list Product) : result number :=
  if existsb (fun p => too_large (quantity p)) ps then Raise OverflowError
  else match ps with
       | [] => Ok (NInt 0)
       | _ :: _ => Ok (NFloat (float_sum_upto ps (List.length ps)))
       end.

(** ** An address validator that normalises

    The address type of the validation library hands back the address in
    normalised form, the domain in lower case.  This layer is
    [json_validators] with such an address validator. *)

Definition lower (c : Ascii.ascii) : Ascii.ascii :=
  let n := Ascii.nat_of_ascii c in
  if (Nat.leb 65 n && Nat.leb n 90)%bool
  then Ascii.ascii_of_nat (n + 32)
  else c.

Fixpoint lower_all (s : string) : string :=
  match s with
  | EmptyString => EmptyString
  | String c s' => String (lower c) (lower_all s')
  end.

Fixpoint normalise_address (s : string) : string :=
  match s with
  | EmptyString => EmptyString
  | String c s' =>
      if Ascii.eqb c "@"%char then String c (lower_all s')
      else String c (normalise_address s')
  end.

Definition normalising_validators : Validators := {|
  path_int := path_int json_validators;
  validate_str := validate_str json_validators;
  validate_float := validate_float json_validators;
  validate_int := validate_int json_validators;
  validate_email := fun v =>
    match v with
    | PyStr s => if address_ok false s then Some (normalise_address s) else None
    | _ => None
    end
|}.

(** [{"email":"A.User@B.COM","products":[]}]. *)
Definition body_upper : pyval :=
  PyDict [ ("email", PyStr "A.User@B.COM"); ("products", PyList []) ].

(** ** Lemmas on the two loops *)

Lemma total_quantity_loop_acc (ps : list Product) :
  forall acc, total_quantity_loop acc ps = acc + sum_quantity ps.
Proof.
  induction ps as [|p rest IH]; intros acc; simpl.
  - lia.
  - rewrite IH. lia.
Qed.

Lemma sum_quantity_app (p1 p2 : list Product) :
  sum_quantity (p1 ++ p2) = sum_quantity p1 + sum_quantity p2.
Proof.
  induction p1 as [|p rest IH]; simpl; [reflexivity | rewrite IH; lia].
Qed.

(** The loop over a concatenation is the loop over the second list started
    from the result of the loop over the first. *)
Lemma total_price_loop_app (p1 p2 : list Product) :
  forall acc,
    total_price_loop acc (p1 ++ p2) =
    (mid <- total_price_loop acc p1 ;; total_price_loop mid p2).
Proof.
  induction p1 as [|p rest IH]; intros acc; cbn [total_price_loop app].
  - reflexivity.
  - destruct (py_mul (NFloat (price p)) (NInt (quantity p))) as [term|e];
      cbn [bind]; [|reflexivity].
    destruct (py_add acc term) as [acc'|e]; cbn [bind]; [|reflexivity].
    apply IH.
Qed.

Lemma total_price_loop_snoc (ps : list Product) (p : Product) (acc : number) :
  total_price_loop acc (ps ++ [p]) =
  (partial <- total_price_loop acc ps ;;
   term <- line_price p ;; py_add partial term).
Proof.
  rewrite total_price_loop_app.
  destruct (total_price_loop acc ps) as [partial|e]; cbn [bind]; [|reflexivity].
  unfold line_price. cbn [total_price_loop].
  destruct (py_mul (NFloat (price p)) (NInt (quantity p))) as [term|e];
    cbn [bind]; [|reflexivity].
  destruct (py_add partial term); reflexivity.
Qed.

Lemma firstn_succ_nth {A : Type} (l : list A) :
  forall k x, nth_error l k = Some x -> firstn (S k) l = firstn k l ++ [x].
Proof.
  induction l as [|a l IH]; intros [|k] x H; simpl in *; try discriminate.
  - injection H as ->. reflexivity.
  - f_equal. apply IH. exact H.
Qed.

Lemma price_sum_upto_firstn (ps : list Product) :
  forall k, (k <= List.length ps)%nat ->
            price_sum_upto ps k = total_price_loop (NInt 0) (firstn k ps).
Proof.
  induction k as [|k IH]; intros Hk.
  - reflexivity.
  - cbn [price_sum_upto]. rewrite IH by lia.
    destruct (nth_error ps k) as [p|] eqn:Hp.
    + rewrite (firstn_succ_nth ps k p Hp), total_price_loop_snoc. reflexivity.
    + apply nth_error_None in Hp. lia.
Qed.

(** ** The totals *)

(** C1: for every order, [total_quantity] is the sum of [quantity] over the
    products of the order, in list order. *)
Theorem total_quantity_is_sum (o : Order) :
  total_quantity o = sum_quantity (products o).
Proof.
  unfold total_quantity. rewrite total_quantity_loop_acc. lia.
Qed.

Lemma float_of_int_cases (z : Z) :
  float_of_int z =
  if too_large z then Raise OverflowError else Ok (nearest_float z).
Proof.
  unfold float_of_int, too_large, nearest_float.
  destruct (binary_normalize prec emax z 0 false); reflexivity.
Qed.

Lemma total_price_loop_fold (ps : list Product) :
  forall f,
    total_price_loop (NFloat f) ps =
    if existsb (fun p => too_large (quantity p)) ps then Raise OverflowError
    else Ok (NFloat (fold_left
                       (fun acc p =>
                          PrimFloat.add acc
                            (PrimFloat.mul (price p)
                                           (nearest_float (quantity p))))
                       ps f)).
Proof.
  induction ps as [|p rest IH]; intros f; [reflexivity|].
  cbn [total_price_loop existsb fold_left].
  unfold py_mul, as_float. cbn [bind]. rewrite float_of_int_cases.
  destruct (too_large (quantity p)); cbn [bind orb]; [reflexivity|].
  unfold py_add, as_float. cbn [bind]. apply IH.
Qed.

Lemma float_sum_upto_firstn (ps : list Product) :
  forall k, (k <= List.length ps)%nat ->
            float_sum_upto ps k =
            fold_left
              (fun acc p =>
                 PrimFloat.add acc
                   (PrimFloat.mul (price p) (nearest_float (quantity p))))
              (firstn k ps) 0%float.
Proof.
  induction k as [|k IH]; intros Hk; [reflexivity|].
  cbn [float_sum_upto]. rewrite IH by lia.
  destruct (nth_error ps k) as [p|] eqn:Hp.
  - rewrite (firstn_succ_nth ps k p Hp), fold_left_app. reflexivity.
  - apply nth_error_None in Hp. lia.
Qed.

Lemma total_price_loop_ordered_sum (ps : list Product) :
  total_price_loop (NInt 0) ps = ordered_sum ps.
Proof.
  unfold ordered_sum. destruct ps as [|p rest]; [reflexivity|].
  rewrite float_sum_upto_firstn by lia. rewrite firstn_all.
  cbn [total_price_loop existsb fold_left].
  unfold py_mul, as_float. cbn [bind]. rewrite float_of_int_cases.
  destruct (too_large (quantity p)); cbn [bind orb]; [reflexivity|].
  change (py_add (NInt 0)
                 (NFloat (price p * nearest_float (quantity p))))
    with (Ok (NFloat (0 + price p * nearest_float (quantity p))%float)).
  cbn [bind]. apply total_price_loop_fold.
Qed.

(** C2: for every order, [total_price] is the sum of [price * quantity] over
    the products of the order, accumulated from the first product to the
    last: the integer 0 for no product, otherwise the binary64 sum, started
    at 0.0, of the binary64 products of each price and its quantity rounded
    to a float; an order with a quantity too large to round raises
    [OverflowError] where the sum has no value.  One pen at 1.5 four times
    gives 6.0; two pens at 1.5 and a mug at 10.0 give 13.0; unit lines at
    0.1, 0.2 and 0.3 give 0.6000000000000001. *)
Theorem total_price_is_ordered_sum (o : Order) :
  total_price o = price_sum (products o)
  /\ total_price o = ordered_sum (products o)
  /\ total_price order_A = Ok (NFloat 6.0)
  /\ total_price order_B = Ok (NFloat 13.0)
  /\ total_price (mkOrder None (dime ++ rest_of_basket))
     = Ok (NFloat 0.6000000000000001).
Proof.
  split; [|split; [|split; [|split]]].
  - unfold total_price, price_sum.
    rewrite price_sum_upto_firstn by lia.
    rewrite firstn_all. reflexivity.
  - apply total_price_loop_ordered_sum.
  - vm_compute. reflexivity.
  - vm_compute. reflexivity.
  - vm_compute. reflexivity.
Qed.

(** C9, as amended: [total_quantity] is additive over concatenation, and
    [total_price] of [p1 ++ p2] is the accumulation over [p2] continued from
    [total_price] of [p1]. *)
Theorem totals_over_concatenation (e : option string) (p1 p2 : list Product) :
  total_quantity (mkOrder e (p1 ++ p2)) =
    total_quantity (mkOrder e p1) + total_quantity (mkOrder e p2)
  /\ total_price (mkOrder e (p1 ++ p2)) =
     (mid <- total_price (mkOrder e p1) ;; total_price_loop mid p2).
Proof.
  split.
  - unfold total_quantity. cbn [products].
    rewrite !total_quantity_loop_acc, sum_quantity_app. lia.
  - unfold total_price. cbn [products]. apply total_price_loop_app.
Qed.

(** C9, as stated, fails: 0.1, then 0.2 and 0.3.  Accumulated in one list
    the three lines give 0.6000000000000001; the totals of the two lists are
    0.1 and 0.5, whose sum is 0.6. *)
Lemma total_price_not_additive :
  total_price (mkOrder None (dime ++ rest_of_basket))
    = Ok (NFloat 0.6000000000000001)
  /\ (a <- total_price (mkOrder None dime) ;;
      b <- total_price (mkOrder None rest_of_basket) ;;
      py_add a b) = Ok (NFloat 0.6)
  /\ num_eqb (NFloat 0.6000000000000001) (NFloat 0.6) = false
  /\ total_price (mkOrder None (dime ++ rest_of_basket))
     <> (a <- total_price (mkOrder None dime) ;;
         b <- total_price (mkOrder None rest_of_basket) ;;
         py_add a b).
Proof.
  repeat split; try (vm_compute; reflexivity).
  intros H.
  apply (f_equal (fun r => match r with
                           | Ok (NFloat f) => Prim2SF f
                           | _ => S754_nan
                           end)) in H.
  vm_compute in H. discriminate H.
Qed.

(** ** The handler *)

Lemma model_dump_eq (o : Order) :
  model_dump o = (tp <- total_price o ;; Ok (snapshot_of o tp)).
Proof. reflexivity. Qed.

(** The two outcomes of a call: the snapshot is appended and the summary
    returned, or [total_price] raises inside [model_dump], before the
    append. *)
Lemma process_order_eq (customer_id : Z) (o : Order) (s : db) :
  process_order customer_id o s =
  match total_price o with
  | Ok tp => (Ok (summary customer_id (total_quantity o) tp),
              s ++ [snapshot_of o tp])
  | Raise e => (Raise e, s)
  end.
Proof.
  unfold process_order, bindM, lift, ret, fake_orders_db_append.
  rewrite model_dump_eq.
  destruct (total_price o) as [tp|e]; reflexivity.
Qed.

Lemma process_order_returned (customer_id : Z) (o : Order) (s : db) :
  returned (fst (process_order customer_id o s)) ->
  exists tp, total_price o = Ok tp.
Proof.
  rewrite process_order_eq. intros [content H].
  destruct (total_price o) as [tp|e]; [eauto | discriminate H].
Qed.

(** C3, as stated, fails: the body of one pen with quantity [2^1024]
    validates, and the handler raises [OverflowError] where the claim has it
    return a summary. *)
Lemma huge_quantity_raises :
  Order_validate json_validators body_huge = Some order_huge
  /\ total_price order_huge = Raise OverflowError
  /\ process_order 42 order_huge [] = (Raise OverflowError, [])
  /\ post_order json_validators "42" body_huge []
     = (InternalServerError500 OverflowError, [])
  /\ ~ (exists content, fst (process_order 42 order_huge []) = Ok content).
Proof.
  repeat split; try (vm_compute; reflexivity).
  intros [content H]. vm_compute in H. discriminate H.
Qed.

(** [total_price] returns exactly when every quantity fits in a [float]. *)
Lemma total_price_loop_float (ps : list Product) :
  Forall quantity_fits ps ->
  forall f, exists f', total_price_loop (NFloat f) ps = Ok (NFloat f').
Proof.
  induction 1 as [|p rest [fq Hq] _ IH]; intros f; cbn [total_price_loop].
  - exists f. reflexivity.
  - unfold py_mul, py_add, as_float. rewrite Hq. cbn [bind].
    apply IH.
Qed.

Lemma total_price_loop_returned (ps : list Product) :
  forall acc, returned (total_price_loop acc ps) -> Forall quantity_fits ps.
Proof.
  induction ps as [|p rest IH]; intros acc [r Hr]; [constructor|].
  cbn [total_price_loop] in Hr. unfold py_mul, as_float in Hr.
  destruct (float_of_int (quantity p)) as [fq|e] eqn:Hq;
    cbn [bind] in Hr; [|discriminate Hr].
  constructor; [exists fq; exact Hq|].
  destruct (py_add acc (NFloat (price p * fq))) as [acc'|e];
    cbn [bind] in Hr; [|discriminate Hr].
  apply (IH acc'). exists r. exact Hr.
Qed.

Lemma total_price_returns_iff (o : Order) :
  returned (total_price o) <-> Forall quantity_fits (products o).
Proof.
  unfold total_price. split; [apply total_price_loop_returned|].
  intros Hall. destruct (products o) as [|p rest]; [exists (NInt 0); reflexivity|].
  inversion Hall as [|p' rest' [fq Hq] Hrest]; subst.
  cbn [total_price_loop]. unfold py_mul, as_float. rewrite Hq. cbn [bind].
  change (py_add (NInt 0) (NFloat (price p * fq)))
    with (Ok (NFloat (0 + price p * fq)%float)).
  cbn [bind].
  destruct (total_price_loop_float rest Hrest (0 + price p * fq)%float)
    as [f' Hf'].
  exists (NFloat f'). exact Hf'.
Qed.

Lemma quantity_fits_iff (p : Product) :
  quantity_fits p <-> too_large (quantity p) = false.
Proof.
  unfold quantity_fits, returned. rewrite float_of_int_cases.
  destruct (too_large (quantity p)); split; intros H.
  - destruct H as [f H]. discriminate H.
  - discriminate H.
  - reflexivity.
  - eexists. reflexivity.
Qed.

(** C3, as amended: for every customer identifier and every order in which
    no quantity is too large to be rounded to a [float], [total_price] has a
    value and the handler returns exactly [{id: customer identifier,
    quantity: total_quantity, total_price: total_price}]; scenario A
    returns [{"id":42,"quantity":4,"total_price":6.0}] and scenario B
    [{"id":7,"quantity":3,"total_price":13.0}], from the handler and from
    the endpoint. *)
Theorem process_order_returns_summary
        (customer_id : Z) (order : Order) (s : db) :
  Forall (fun p => too_large (quantity p) = false) (products order) ->
  (exists tp,
      total_price order = Ok tp
      /\ fst (process_order customer_id order s)
         = Ok (PyDict [ ("id", PyNum (NInt customer_id));
                        ("quantity", PyNum (NInt (total_quantity order)));
                        ("total_price", PyNum tp) ]))
  /\ fst (process_order 42 order_A s)
     = Ok (PyDict [ ("id", PyNum (NInt 42));
                    ("quantity", PyNum (NInt 4));
                    ("total_price", PyNum (NFloat 6.0)) ])
  /\ fst (process_order 7 order_B s)
     = Ok (PyDict [ ("id", PyNum (NInt 7));
                    ("quantity", PyNum (NInt 3));
                    ("total_price", PyNum (NFloat 13.0)) ])
  /\ fst (post_order json_validators "42" body_A s)
     = Response200 (PyDict [ ("id", PyNum (NInt 42));
                             ("quantity", PyNum (NInt 4));
                             ("total_price", PyNum (NFloat 6.0)) ])
  /\ fst (post_order json_validators "7" body_B s)
     = Response200 (PyDict [ ("id", PyNum (NInt 7));
                             ("quantity", PyNum (NInt 3));
                             ("total_price", PyNum (NFloat 13.0)) ]).
Proof.
  intros Hfits.
  assert (Hall : Forall quantity_fits (products order)).
  { apply Forall_impl with (2 := Hfits).
    intros p Hp. apply quantity_fits_iff. exact Hp. }
  destruct (proj2 (total_price_returns_iff order) Hall) as [tp Htp].
  split; [|split; [|split; [|split]]].
  - exists tp. split; [exact Htp|].
    rewrite process_order_eq, Htp. reflexivity.
  - rewrite process_order_eq. reflexivity.
  - rewrite process_order_eq. reflexivity.
  - unfold post_order, dispatch.
    change (path_int json_validators "42") with (Some 42).
    change (Order_validate json_validators body_A) with (Some order_A).
    cbv beta iota. rewrite process_order_eq. reflexivity.
  - unfold post_order, dispatch.
    change (path_int json_validators "7") with (Some 7).
    change (Order_validate json_validators body_B) with (Some order_B).
    cbv beta iota. rewrite process_order_eq. reflexivity.
Qed.

Lemma process_order_returns_summary_witness :
  exists tp,
    total_price order_B = Ok tp
    /\ fst (process_order 7 order_B [])
       = Ok (PyDict [ ("id", PyNum (NInt 7));
                      ("quantity", PyNum (NInt (total_quantity order_B)));
                      ("total_price", PyNum tp) ]).
Proof.
  apply (process_order_returns_summary 7 order_B []).
  repeat constructor.
Defined.

(** ** Requests that fail validation *)

Lemma validate_list_In {A : Type} (f : pyval -> option A) (l : list pyval) :
  forall v, In v l -> f v = None -> validate_list f l = None.
Proof.
  induction l as [|x l IH]; intros v Hin Hv; simpl in *.
  - contradiction.
  - destruct Hin as [-> | Hin].
    + rewrite Hv. reflexivity.
    + rewrite (IH v Hin Hv). destruct (f x); reflexivity.
Qed.

Lemma validate_list_None {A : Type} (f : pyval -> option A) (l : list pyval) :
  validate_list f l = None -> exists v, In v l /\ f v = None.
Proof.
  induction l as [|x l IH]; simpl; intros H.
  - discriminate H.
  - destruct (f x) eqn:Hx.
    + destruct (validate_list f l); [discriminate H|].
      destruct (IH eq_refl) as [v [Hin Hv]]. exists v. auto.
    + exists x. auto.
Qed.

(** Each cause makes the coercion of the path segment or the validation of
    the body fail. *)
Lemma rejection_cause_sound (V : Validators) (segment : string) (body : pyval) :
  rejection_cause V segment body ->
  path_int V segment = None \/ Order_validate V body = None.
Proof.
  intros [seg b H | seg b H | seg d H | seg d v H Hv | seg d l v H Hin Hv
         | seg d v H Hv He].
  - left. exact H.
  - right. destruct b; try reflexivity. exfalso. exact (H d eq_refl).
  - right. unfold Order_validate, products_validate. rewrite H.
    destruct (email_validate V d); reflexivity.
  - right. unfold Order_validate, products_validate. rewrite H.
    destruct v; try (destruct (email_validate V d); reflexivity).
    exfalso. exact (Hv l eq_refl).
  - right. unfold Order_validate, products_validate. rewrite H.
    rewrite (validate_list_In _ l v Hin Hv).
    destruct (email_validate V d); reflexivity.
  - right. unfold Order_validate, email_validate. rewrite H.
    destruct v; try rewrite He; try reflexivity. exfalso. apply Hv. reflexivity.
Qed.

(** And every failure of validation has one of these causes. *)
Lemma rejection_cause_complete (V : Validators) (segment : string) (body : pyval) :
  path_int V segment = None \/ Order_validate V body = None ->
  rejection_cause V segment body.
Proof.
  intros [H | H].
  - apply bad_customer_id. exact H.
  - destruct body as [| | | | |d];
      try (apply body_not_object; intros d' Hd; discriminate Hd).
    unfold Order_validate in H.
    destruct (products_validate V d) as [ps|] eqn:Hps.
    + destruct (email_validate V d) as [e|] eqn:He; [discriminate H|].
      unfold email_validate in He.
      destruct (dict_get "email" d) as [v|] eqn:Hv; [|discriminate He].
      apply (email_invalid V segment d v Hv).
      * intros ->. discriminate He.
      * destruct (validate_email V v); [|reflexivity].
        destruct v; discriminate He.
    + unfold products_validate in Hps.
      destruct (dict_get "products" d) as [v|] eqn:Hv;
        [|apply products_missing; exact Hv].
      destruct v as [| | | |l|];
        try (apply (products_not_list V segment d _ Hv);
             intros l' Hl; discriminate Hl).
      destruct (validate_list_None _ l Hps) as [v [Hin Hnone]].
      exact (product_invalid V segment d l v Hv Hin Hnone).
Qed.

(** C4: a request that fails validation (malformed customer identifier,
    missing [products], wrong field types, an [email] that is not an
    address) is rejected whatever the handler is, so before it runs, and the
    order store is unchanged. *)
Theorem invalid_request_rejected
        (V : Validators) (segment : string) (body : pyval) :
  rejection_cause V segment body ->
  forall (handler : Z -> Order -> M pyval) (s : db),
    dispatch V handler segment body s = (ValidationError422, s).
Proof.
  intros Hcause handler s. unfold dispatch.
  destruct (rejection_cause_sound V segment body Hcause) as [H | H]; rewrite H.
  - reflexivity.
  - destruct (path_int V segment); reflexivity.
Qed.

Lemma invalid_request_rejected_witness :
  post_order json_validators "1" body_D [] = (ValidationError422, []).
Proof.
  apply (invalid_request_rejected json_validators "1" body_D).
  apply (email_invalid json_validators "1" _ (PyStr "not-an-email")).
  - reflexivity.
  - discriminate.
  - reflexivity.
Defined.

(** ** The order store *)

Lemma submit_all_cons (customer_id : Z) (o : Order)
      (rest : list (Z * Order)) (s : db) :
  submit_all ((customer_id, o) :: rest) s =
  (fst (process_order customer_id o s)
     :: fst (submit_all rest (snd (process_order customer_id o s))),
   snd (submit_all rest (snd (process_order customer_id o s)))).
Proof.
  cbn [submit_all].
  destruct (process_order customer_id o s) as [r s']. cbn [fst snd].
  destruct (submit_all rest s') as [rs s'']. reflexivity.
Qed.

(** Whatever the submissions do, the store only grows at its end. *)
Lemma submit_all_extends (subs : list (Z * Order)) :
  forall s, exists added, snd (submit_all subs s) = s ++ added.
Proof.
  induction subs as [|[customer_id o] rest IH]; intros s.
  - exists []. simpl. rewrite app_nil_r. reflexivity.
  - rewrite submit_all_cons. cbn [snd].
    destruct (IH (snd (process_order customer_id o s))) as [added Hadded].
    rewrite Hadded, process_order_eq.
    destruct (total_price o) as [tp|e]; cbn [snd].
    + exists (snapshot_of o tp :: added). rewrite <- app_assoc. reflexivity.
    + exists added. reflexivity.
Qed.

Lemma submit_all_records (subs : list (Z * Order)) :
  forall s,
    Forall returned (fst (submit_all subs s)) ->
    exists records,
      Forall2 (fun sub record => model_dump (snd sub) = Ok record) subs records
      /\ snd (submit_all subs s) = s ++ records.
Proof.
  induction subs as [|[customer_id o] rest IH]; intros s Hall.
  - exists []. split; [constructor | simpl; rewrite app_nil_r; reflexivity].
  - rewrite submit_all_cons in Hall |- *. cbn [fst snd] in Hall |- *.
    inversion Hall as [|r rs Hr Hrest]; subst.
    destruct (process_order_returned _ _ _ Hr) as [tp Htp].
    rewrite process_order_eq, Htp in Hrest |- *. cbn [snd] in Hrest |- *.
    destruct (IH _ Hrest) as [records [Hrecs Hstore]].
    exists (snapshot_of o tp :: records). split.
    + constructor; [|exact Hrecs].
      cbn [snd]. rewrite model_dump_eq, Htp. reflexivity.
    + rewrite Hstore, <- app_assoc. reflexivity.
Qed.

(** C5: in a run of successful submissions each one appends exactly one
    entry, its snapshot, at the end of the store; the entries already there
    keep their place and their value; the same order submitted twice leaves
    two entries; after [n] submissions the store holds [n] more entries. *)
Theorem store_is_append_only (subs : list (Z * Order)) (s : db) :
  Forall returned (fst (submit_all subs s)) ->
  (exists records,
      Forall2 (fun sub record => model_dump (snd sub) = Ok record) subs records
      /\ snd (submit_all subs s) = s ++ records)
  /\ List.length (snd (submit_all subs s))
     = (List.length s + List.length subs)%nat
  /\ (forall i entry,
         nth_error s i = Some entry ->
         nth_error (snd (submit_all subs s)) i = Some entry)
  /\ (forall customer_id o,
         subs = [(customer_id, o); (customer_id, o)] ->
         exists record,
           model_dump o = Ok record
           /\ snd (submit_all subs s) = s ++ [record; record]).
Proof.
  intros Hall.
  destruct (submit_all_records subs s Hall) as [records [Hrecs Hstore]].
  split; [|split; [|split]].
  - exists records. auto.
  - rewrite Hstore, length_app. f_equal. symmetry.
    exact (Forall2_length Hrecs).
  - intros i entry Hi. rewrite Hstore.
    rewrite nth_error_app1; [exact Hi|].
    apply nth_error_Some. rewrite Hi. discriminate.
  - intros customer_id o ->.
    inversion Hrecs as [|sub r1 subs' rs1 H1 Htail]; subst.
    inversion Htail as [|sub r2 subs' rs2 H2 Hnil]; subst.
    inversion Hnil; subst. cbn [snd] in H1, H2.
    assert (r2 = r1) as -> by congruence.
    exists r1. auto.
Qed.

Lemma store_is_append_only_witness :
  List.length (snd (submit_all [(42, order_A); (42, order_A)] []))
  = (List.length (@nil pyval) + 2)%nat.
Proof.
  apply (store_is_append_only [(42, order_A); (42, order_A)] []).
  repeat constructor; eexists; vm_compute; reflexivity.
Defined.

(** C6: the record a successful submission appends is the serialised order:
    its [email], each of its products with its name, price and quantity, in
    order, and [total_price] and [total_quantity] as they evaluate at that
    moment; its keys are those four, none of them for the customer
    identifier, and the record is the same whatever the customer identifier
    is. *)
Theorem stored_record_is_snapshot
        (customer_id : Z) (o : Order) (s s' : db) (content : pyval) :
  process_order customer_id o s = (Ok content, s') ->
  exists tp record,
    total_price o = Ok tp
    /\ model_dump o = Ok record
    /\ s' = s ++ [record]
    /\ record = PyDict
                  [ ("email", match email o with
                              | Some address => PyStr address
                              | None => PyNone
                              end);
                    ("products",
                     PyList
                       (map (fun p =>
                               PyDict
                                 [ ("product_name", PyStr (product_name p));
                                   ("price", PyNum (NFloat (price p)));
                                   ("quantity", PyNum (NInt (quantity p))) ])
                            (products o)));
                    ("total_price", PyNum tp);
                    ("total_quantity", PyNum (NInt (total_quantity o))) ]
    /\ py_keys record = ["email"; "products"; "total_price"; "total_quantity"]
    /\ py_get "id" record = None
    /\ py_get "customer_id" record = None
    /\ (forall other_id, snd (process_order other_id o s) = s ++ [record]).
Proof.
  rewrite process_order_eq. intros H.
  destruct (total_price o) as [tp|e] eqn:Htp; [|discriminate H].
  injection H as _ <-.
  exists tp, (snapshot_of o tp).
  split; [reflexivity|].
  split; [rewrite model_dump_eq, Htp; reflexivity|].
  split; [reflexivity|].
  split; [reflexivity|].
  split; [reflexivity|].
  split; [reflexivity|].
  split; [reflexivity|].
  intros other_id. rewrite process_order_eq, Htp. reflexivity.
Qed.

Lemma stored_record_is_snapshot_witness :
  exists tp record,
    total_price order_A = Ok tp
    /\ model_dump order_A = Ok record
    /\ snd (process_order 42 order_A []) = [] ++ [record]
    /\ record = PyDict
                  [ ("email", PyNone);
                    ("products",
                     PyList [ PyDict [ ("product_name", PyStr "Pen");
                                       ("price", PyNum (NFloat 1.5));
                                       ("quantity", PyNum (NInt 4)) ] ]);
                    ("total_price", PyNum tp);
                    ("total_quantity", PyNum (NInt 4)) ].
Proof.
  destruct (stored_record_is_snapshot
              42 order_A [] (snd (process_order 42 order_A []))
              (summary 42 4 (NFloat 6.0)) eq_refl)
    as [tp [record [H1 [H2 [H3 [H4 _]]]]]].
  exists tp, record. auto.
Defined.

(** ** Empty orders *)

(** C7: a body whose [products] is the empty list validates, whatever the
    coercions of the scalar types are; for every order with no product
    [total_quantity] is 0 and [total_price] is a zero, equal to [0.0] under
    Python's [==] (the value is the integer the loop starts from); and
    [POST /order/1] with [{"products":[]}] returns a summary equal to
    [{"id":1,"quantity":0,"total_price":0.0}]. *)
Theorem empty_order_totals (V : Validators) (e : option string) (s : db) :
  Order_validate V body_C = Some order_C
  /\ total_quantity (mkOrder e []) = 0
  /\ total_price (mkOrder e []) = Ok (NInt 0)
  /\ num_eqb (NInt 0) (NFloat 0.0) = true
  /\ (exists content,
        fst (process_order 1 order_C s) = Ok content
        /\ py_eqb content
                  (PyDict [ ("id", PyNum (NInt 1));
                            ("quantity", PyNum (NInt 0));
                            ("total_price", PyNum (NFloat 0.0)) ]) = true)
  /\ (exists content,
        fst (post_order json_validators "1" body_C s) = Response200 content
        /\ py_eqb content
                  (PyDict [ ("id", PyNum (NInt 1));
                            ("quantity", PyNum (NInt 0));
                            ("total_price", PyNum (NFloat 0.0)) ]) = true).
Proof.
  split; [reflexivity|].
  split; [reflexivity|].
  split; [reflexivity|].
  split; [vm_compute; reflexivity|].
  split.
  - exists (summary 1 0 (NInt 0)). split.
    + rewrite process_order_eq. reflexivity.
    + vm_compute. reflexivity.
  - exists (summary 1 0 (NInt 0)). split.
    + unfold post_order, dispatch.
      change (path_int json_validators "1") with (Some 1).
      change (Order_validate json_validators body_C) with (Some order_C).
      cbv beta iota. rewrite process_order_eq. reflexivity.
    + vm_compute. reflexivity.
Qed.

(** ** What a response depends on *)

(** C8: the outcome of the handler, and the response of the endpoint, are
    the same for the same customer identifier and the same body whatever
    the order store holds. *)
Theorem response_independent_of_store
        (V : Validators) (segment : string) (body : pyval)
        (customer_id : Z) (o : Order) (s1 s2 : db) :
  fst (process_order customer_id o s1) = fst (process_order customer_id o s2)
  /\ fst (post_order V segment body s1) = fst (post_order V segment body s2).
Proof.
  split.
  - rewrite !process_order_eq. destruct (total_price o); reflexivity.
  - unfold post_order, dispatch.
    destruct (path_int V segment) as [cid|]; [|reflexivity].
    destruct (Order_validate V body) as [order|]; [|reflexivity].
    rewrite !process_order_eq. destruct (total_price order); reflexivity.
Qed.

(** ** The email entry *)

Lemma Order_validate_email (V : Validators) (d : list (string * pyval))
      (o : Order) :
  Order_validate V (PyDict d) = Some o ->
  email_validate V d = Some (email o).
Proof.
  unfold Order_validate. intros H.
  destruct (email_validate V d) as [e|]; [|discriminate H].
  destruct (products_validate V d) as [ps|]; [|discriminate H].
  injection H as <-. reflexivity.
Qed.

(** C10, as stated, fails: the address [A.User@B.COM] is stored as
    [A.User@b.com], the form the address validator hands back. *)
Lemma stored_address_is_normalised :
  Order_validate normalising_validators body_upper
    = Some (mkOrder (Some "A.User@b.com") [])
  /\ (exists record,
        post_order normalising_validators "1" body_upper []
          = (Response200 (summary 1 0 (NInt 0)), [record])
        /\ py_get "email" body_upper = Some (PyStr "A.User@B.COM")
        /\ py_get "email" record = Some (PyStr "A.User@b.com")
        /\ py_get "email" record <> py_get "email" body_upper)
  /\ py_eqb (PyStr "A.User@b.com") (PyStr "A.User@B.COM") = false.
Proof.
  split; [vm_compute; reflexivity|].
  split; [|vm_compute; reflexivity].
  eexists. split; [vm_compute; reflexivity|].
  split; [reflexivity|]. split; [reflexivity|].
  cbn. discriminate.
Qed.

(** C10, as amended: when the body has no [email] key the order's [email]
    is [None]; every record a submission stores has an [email] entry: the
    address the address validator returned for the supplied value when one
    was given, and [None] when the request omitted it. *)
Theorem stored_email_entry
        (V : Validators) (d : list (string * pyval))
        (customer_id : Z) (o : Order) (s s' : db) (content : pyval) :
  Order_validate V (PyDict d) = Some o ->
  process_order customer_id o s = (Ok content, s') ->
  exists record,
    s' = s ++ [record]
    /\ py_get "email" record
       = Some (match email o with
               | Some address => PyStr address
               | None => PyNone
               end)
    /\ (dict_get "email" d = None ->
        email o = None /\ py_get "email" record = Some PyNone)
    /\ (forall v,
          dict_get "email" d = Some v -> v <> PyNone ->
          exists address,
            validate_email V v = Some address
            /\ email o = Some address
            /\ py_get "email" record = Some (PyStr address)).
Proof.
  intros Hvalid Hcall.
  apply Order_validate_email in Hvalid. unfold email_validate in Hvalid.
  rewrite process_order_eq in Hcall.
  destruct (total_price o) as [tp|err]; [|discriminate Hcall].
  injection Hcall as _ <-.
  exists (snapshot_of o tp).
  split; [reflexivity|].
  split; [reflexivity|].
  split.
  - intros Habsent. rewrite Habsent in Hvalid.
    injection Hvalid as He. symmetry in He.
    split; [exact He|]. cbn. rewrite He. reflexivity.
  - intros v Hv Hnot. rewrite Hv in Hvalid.
    destruct (validate_email V v) as [address|] eqn:Haddr.
    + exists address.
      assert (He : email o = Some address).
      { destruct v; congruence. }
      split; [reflexivity|]. split; [exact He|].
      cbn. rewrite He. reflexivity.
    + destruct v; congruence.
Qed.

Lemma stored_email_entry_witness :
  exists record,
    snd (process_order 7 order_B []) = [] ++ [record]
    /\ py_get "email" record = Some (PyStr "a@b.com").
Proof.
  destruct (stored_email_entry
              json_validators
              [ ("email", PyStr "a@b.com");
                ("products", PyList [ product_json "Pen" 1.5 2;
                                      product_json "Mug" 10 1 ]) ]
              7 order_B [] (snd (process_order 7 order_B []))
              (summary 7 3 (NFloat 13.0)) eq_refl eq_refl)
    as [record [H1 [H2 _]]].
  exists record. split; [exact H1 | exact H2].
Defined.

(** ** Further properties of the totals and of the handler *)

Lemma total_price_loop_start (p : Product) (rest : list Product) (r : number) :
  total_price_loop (NInt 0) (p :: rest) = Ok r -> exists f, r = NFloat f.
Proof.
  cbn [total_price_loop]. unfold py_mul, as_float.
  destruct (float_of_int (quantity p)) as [fq|e] eqn:Hq;
    cbn [bind]; [|discriminate].
  change (py_add (NInt 0) (NFloat (price p * fq)))
    with (Ok (NFloat (0 + price p * fq)%float)).
  cbn [bind]. intros Hr.
  assert (Hfits : Forall quantity_fits rest).
  { apply (total_price_loop_returned rest (NFloat (0 + price p * fq)%float)).
    exists r. exact Hr. }
  destruct (total_price_loop_float rest Hfits (0 + price p * fq)%float)
    as [f' Hf'].
  exists f'. congruence.
Qed.

(** X1: [total_price] returns a value exactly when every quantity of the
    order converts to a [float]; otherwise it raises [OverflowError]. *)
Theorem total_price_raises_iff (o : Order) :
  (Forall quantity_fits (products o) <-> exists tp, total_price o = Ok tp)
  /\ (~ Forall quantity_fits (products o)
      <-> total_price o = Raise OverflowError).
Proof.
  pose proof (total_price_returns_iff o) as Hiff. unfold returned in Hiff.
  split; [split; apply Hiff|]. split.
  - intros Hnot. destruct (total_price o) as [tp|[]] eqn:Htp; [|reflexivity].
    exfalso. apply Hnot, Hiff. exists tp. reflexivity.
  - intros Hraise Hall. apply Hiff in Hall. destruct Hall as [tp Htp].
    rewrite Htp in Hraise. discriminate Hraise.
Qed.

(** X2: a call of the handler either returns and appends exactly one record,
    the [model_dump] of the order, or raises [OverflowError] and leaves the
    store as it was; it raises exactly when a quantity does not convert to a
    [float]. *)
Theorem process_order_all_or_nothing (customer_id : Z) (o : Order) (s : db) :
  (Forall quantity_fits (products o)
   /\ exists content record,
        model_dump o = Ok record
        /\ process_order customer_id o s = (Ok content, s ++ [record]))
  \/ (~ Forall quantity_fits (products o)
      /\ model_dump o = Raise OverflowError
      /\ process_order customer_id o s = (Raise OverflowError, s)).
Proof.
  pose proof (total_price_returns_iff o) as Hiff. unfold returned in Hiff.
  rewrite process_order_eq, model_dump_eq.
  destruct (total_price o) as [tp|[]] eqn:Htp.
  - left. split; [apply Hiff; exists tp; reflexivity|].
    exists (summary customer_id (total_quantity o) tp), (snapshot_of o tp).
    split; reflexivity.
  - right. split; [|split; reflexivity].
    intros Hall. apply Hiff in Hall. destruct Hall as [tp Htp']. discriminate Htp'.
Qed.

(** X3: the value of [total_price] is the integer 0 when the order has no
    product and a [float] as soon as it has one. *)
Theorem total_price_value_kind (o : Order) (tp : number) :
  total_price o = Ok tp ->
  (products o = [] /\ tp = NInt 0)
  \/ (products o <> [] /\ exists f, tp = NFloat f).
Proof.
  unfold total_price. destruct (products o) as [|p rest]; intros H.
  - left. split; [reflexivity|]. cbn in H. congruence.
  - right. split; [discriminate|]. exact (total_price_loop_start p rest tp H).
Qed.

Lemma total_price_value_kind_witness :
  (products order_B = [] /\ NFloat 13.0 = NInt 0)
  \/ (products order_B <> [] /\ exists f, NFloat 13.0 = NFloat f).
Proof.
  apply (total_price_value_kind order_B (NFloat 13.0)). reflexivity.
Defined.

(** X4: the summary a call returns and the record it stores agree: the
    summary's [quantity] is the record's [total_quantity], its
    [total_price] the record's [total_price], and its [id] is the customer
    identifier. *)
Theorem summary_agrees_with_record
        (customer_id : Z) (o : Order) (s s' : db) (content : pyval) :
  process_order customer_id o s = (Ok content, s') ->
  exists record q tp,
    s' = s ++ [record]
    /\ py_get "id" content = Some (PyNum (NInt customer_id))
    /\ py_get "quantity" content = Some q
    /\ py_get "total_quantity" record = Some q
    /\ py_get "total_price" content = Some tp
    /\ py_get "total_price" record = Some tp
    /\ py_keys content = ["id"; "quantity"; "total_price"].
Proof.
  rewrite process_order_eq.
  destruct (total_price o) as [tp|e]; intros H; [|discriminate H].
  injection H as <- <-.
  exists (snapshot_of o tp), (PyNum (NInt (total_quantity o))), (PyNum tp).
  split; [reflexivity|]. split; [reflexivity|]. split; [reflexivity|].
  split; [reflexivity|]. split; [reflexivity|]. split; reflexivity.
Qed.

Lemma summary_agrees_with_record_witness :
  exists record q tp,
    snd (process_order 7 order_B []) = [] ++ [record]
    /\ py_get "id" (summary 7 3 (NFloat 13.0)) = Some (PyNum (NInt 7))
    /\ py_get "quantity" (summary 7 3 (NFloat 13.0)) = Some q
    /\ py_get "total_quantity" record = Some q
    /\ py_get "total_price" (summary 7 3 (NFloat 13.0)) = Some tp
    /\ py_get "total_price" record = Some tp
    /\ py_keys (summary 7 3 (NFloat 13.0)) = ["id"; "quantity"; "total_price"].
Proof.
  apply (summary_agrees_with_record 7 order_B []). reflexivity.
Defined.

Lemma sum_quantity_Permutation (ps ps' : list Product) :
  Permutation ps ps' -> sum_quantity ps = sum_quantity ps'.
Proof.
  induction 1 as [|p l l' _ IH|p q l|l l' l'' _ IH1 _ IH2]; simpl.
  - reflexivity.
  - rewrite IH. reflexivity.
  - lia.
  - congruence.
Qed.

(** X5: [total_quantity] does not depend on the order of the products, nor
    on the email. *)
Theorem total_quantity_Permutation
        (e e' : option string) (ps ps' : list Product) :
  Permutation ps ps' ->
  total_quantity (mkOrder e ps) = total_quantity (mkOrder e' ps').
Proof.
  intros Hperm. unfold total_quantity. cbn [products].
  rewrite !total_quantity_loop_acc.
  rewrite (sum_quantity_Permutation ps ps' Hperm). reflexivity.
Qed.

Lemma total_quantity_Permutation_witness :
  total_quantity (mkOrder None [mkProduct "Pen" 1.5 2; mkProduct "Mug" 10 1])
  = total_quantity (mkOrder (Some "a@b.com")
                            [mkProduct "Mug" 10 1; mkProduct "Pen" 1.5 2]).
Proof.
  apply (total_quantity_Permutation None (Some "a@b.com")).
  apply perm_swap.
Defined.

Lemma Product_of_dump_model_dump (p : Product) :
  Product_of_dump (Product_model_dump p) = p.
Proof. destruct p. reflexivity. Qed.

(** X6: a stored record keeps the whole order: reading the [email] and the
    [products] entries of [model_dump]'s result back gives the order again,
    so two orders with the same record are the same order. *)
Theorem model_dump_round_trip (o o' : Order) (record : pyval) :
  model_dump o = Ok record ->
  Order_of_dump record = o
  /\ (model_dump o' = Ok record -> o' = o).
Proof.
  assert (Hback : forall x r, model_dump x = Ok r -> Order_of_dump r = x).
  { intros x r. rewrite model_dump_eq.
    destruct (total_price x) as [tp|e]; cbn [bind]; intros H; [|discriminate H].
    apply (f_equal (fun res => match res with
                               | Ok v => Order_of_dump v
                               | Raise _ => x
                               end)) in H.
    rewrite <- H. unfold Order_of_dump, snapshot_of. cbn.
    destruct x as [em ps]. cbn. f_equal.
    - destruct em; reflexivity.
    - rewrite map_map. rewrite <- (map_id ps) at 2.
      apply map_ext. exact Product_of_dump_model_dump. }
  intros H. split.
  - exact (Hback o record H).
  - intros H'. rewrite <- (Hback o record H). symmetry.
    exact (Hback o' record H').
Qed.

Lemma model_dump_round_trip_witness :
  Order_of_dump (snapshot_of order_B (NFloat 13.0)) = order_B
  /\ (model_dump order_B = Ok (snapshot_of order_B (NFloat 13.0)) ->
      order_B = order_B).
Proof.
  apply (model_dump_round_trip order_B order_B). reflexivity.
Defined.

Lemma total_price_loop_lines (ps ps' : list Product) :
  map (fun p => (price p, quantity p)) ps
  = map (fun p => (price p, quantity p)) ps' ->
  forall acc, total_price_loop acc ps = total_price_loop acc ps'.
Proof.
  revert ps'. induction ps as [|p rest IH]; intros [|p' rest'] H acc;
    try discriminate H; [reflexivity|].
  cbn [map] in H.
  assert (Hq : quantity p = quantity p').
  { exact (f_equal (fun l => match l with
                             | x :: _ => snd x
                             | [] => 0
                             end) H). }
  assert (Hp : price p = price p').
  { exact (f_equal (fun l => match l with
                             | x :: _ => fst x
                             | [] => 0%float
                             end) H). }
  assert (Hrest : map (fun p => (price p, quantity p)) rest
                  = map (fun p => (price p, quantity p)) rest').
  { exact (f_equal (@tl _) H). }
  cbn [total_price_loop]. rewrite Hq, Hp.
  destruct (py_mul (NFloat (price p')) (NInt (quantity p'))) as [term|e];
    cbn [bind]; [|reflexivity].
  destruct (py_add acc term) as [acc'|e]; cbn [bind]; [|reflexivity].
  apply IH. exact Hrest.
Qed.

Lemma total_quantity_loop_lines (ps ps' : list Product) :
  map (fun p => (price p, quantity p)) ps
  = map (fun p => (price p, quantity p)) ps' ->
  forall acc, total_quantity_loop acc ps = total_quantity_loop acc ps'.
Proof.
  revert ps'. induction ps as [|p rest IH]; intros [|p' rest'] H acc;
    try discriminate H; [reflexivity|].
  cbn [map] in H. cbn [total_quantity_loop].
  rewrite (f_equal (fun l => match l with
                             | x :: _ => snd x
                             | [] => 0
                             end) H : quantity p = quantity p').
  apply IH. exact (f_equal (@tl _) H).
Qed.

(** X7: the outcome of the handler depends on the customer identifier and
    on the price and quantity of each line only: neither the email, nor a
    product name, nor the store changes it. *)
Theorem response_ignores_email_and_names
        (customer_id : Z) (o o' : Order) (s s' : db) :
  priced_lines o = priced_lines o' ->
  fst (process_order customer_id o s) = fst (process_order customer_id o' s').
Proof.
  unfold priced_lines. intros H. rewrite !process_order_eq.
  unfold total_price, total_quantity.
  rewrite (total_price_loop_lines _ _ H), (total_quantity_loop_lines _ _ H).
  destruct (total_price_loop (NInt 0) (products o')); reflexivity.
Qed.

Lemma response_ignores_email_and_names_witness :
  fst (process_order 7 order_B [])
  = fst (process_order 7
           (mkOrder None [mkProduct "Pencil" 1.5 2; mkProduct "Cup" 10 1])
           [PyNone]).
Proof.
  apply (response_ignores_email_and_names 7 order_B). reflexivity.
Defined.

(** X8: after any run of submissions, failed ones included, the store is
    the store before followed by one record for each submission that
    returned, in order; a submission that raised leaves nothing. *)
Theorem submit_all_store (subs : list (Z * Order)) (s : db) :
  snd (submit_all subs s) = s ++ records_of subs
  /\ List.length (fst (submit_all subs s)) = List.length subs
  /\ List.length (snd (submit_all subs s))
     = (List.length s + count_returned (fst (submit_all subs s)))%nat.
Proof.
  revert s. induction subs as [|[customer_id o] rest IH]; intros s.
  - cbn. rewrite app_nil_r. split; [reflexivity|]. split; [reflexivity|]. lia.
  - rewrite submit_all_cons.
    destruct (process_order customer_id o s) as [r s1] eqn:Hp. cbn [fst snd].
    destruct (IH s1) as [Hs [Hl Hc]].
    rewrite process_order_eq in Hp.
    unfold records_of. cbn [flat_map snd]. fold (records_of rest).
    rewrite model_dump_eq.
    destruct (total_price o) as [tp|e]; cbn [bind];
      injection Hp as <- <-; cbn [count_returned List.length].
    + split; [rewrite Hs, <- app_assoc; reflexivity|].
      split; [rewrite Hl; reflexivity|].
      rewrite Hc, length_app. cbn [List.length]. lia.
    + split; [exact Hs|]. split; [rewrite Hl; reflexivity | exact Hc].
Qed.

Lemma sum_quantity_bounds (ps : list Product) :
  Forall (fun p => 0 <= quantity p) ps ->
  0 <= sum_quantity ps
  /\ forall p, In p ps -> quantity p <= sum_quantity ps.
Proof.
  induction 1 as [|q rest Hq _ [IH0 IH]]; simpl.
  - split; [lia | contradiction].
  - split; [lia|]. intros p [-> | Hin]; [lia|].
    specialize (IH p Hin). lia.
Qed.

(** X9: when no quantity is negative, [total_quantity] is not negative and
    is at least the quantity of each product. *)
Theorem total_quantity_bounds (o : Order) :
  Forall (fun p => 0 <= quantity p) (products o) ->
  0 <= total_quantity o
  /\ forall p, In p (products o) -> quantity p <= total_quantity o.
Proof.
  intros Hall. unfold total_quantity. rewrite total_quantity_loop_acc.
  destruct (sum_quantity_bounds (products o) Hall) as [H0 Hp].
  split; [lia|]. intros p Hin. specialize (Hp p Hin). lia.
Qed.

Lemma total_quantity_bounds_witness :
  0 <= total_quantity order_B
  /\ forall p, In p (products order_B) -> quantity p <= total_quantity order_B.
Proof.
  apply (total_quantity_bounds order_B).
  repeat constructor; cbn; lia.
Defined.
